(** * playerprefs: the Among Us [playerPrefs] record codec

    A shallow embedding of [playerprefs.py] and the properties of its
    decoder ([PlayerPrefs.from_string]) and encoder ([PlayerPrefs.__str__]).

    Modelling conventions.
    - A Python [str] is a [string]; its characters are read as the code
      points below 256.
    - A Python [int] is a [Z]: integers are unbounded, as in the language,
      and the limit an interpreter may be configured to put on the number
      of digits converted between [int] and [str] is not modelled.
    - An exception is a value of [exn]; a computation that may raise
      returns a [result].  Arguments of a call are evaluated left to right
      and the first exception raised is the one that propagates, which the
      bind of [result] reproduces.
    - A field of the dataclass holds any Python object: the annotations of
      a dataclass are not checked.  Objects are the type [value]. *)

From Stdlib Require Import ZArith String Ascii List Lia.
From Stdlib Require Import DecimalString DecimalZ.
From stdpp Require Import gmap strings list fin_maps.

Open Scope string_scope.
Open Scope Z_scope.

(** ** Exceptions and results *)

(** The arguments a [ValueError] is raised with: the message of a [raise]
    statement of the module, or what the built-in that raised it was
    applied to. *)
Inductive value_error :=
| Msg (msg : string)                (* raise ValueError(msg) *)
| InvalidLiteral (tok : string)     (* int(tok): invalid literal for int() with base 10 *)
| NotAValid (cls : string) (code : Z). (* cls(code): code is not a valid cls *)

Inductive exn :=
| ValueError (args : value_error)
| KeyError (key : string)           (* a dict subscripted with a missing key *)
| IndexError.                       (* a list subscripted out of range *)

Inductive result (A : Type) :=
| Ok (a : A)
| Raise (e : exn).
Arguments Ok {A} a.
Arguments Raise {A} e.

Definition bind {A B} (c : result A) (k : A -> result B) : result B :=
  match c with
  | Ok a => k a
  | Raise e => Raise e
  end.

Notation "x <- c ;; k" := (bind c (fun x => k))
  (at level 100, c at next level, right associativity).

(** [ValueError] has no subclass that this module raises, and [KeyError]
    and [IndexError] derive from [LookupError]: an exception is "of the
    ValueError class" exactly when it is built by [ValueError]. *)
Definition is_ValueError (e : exn) : bool :=
  match e with
  | ValueError _ => true
  | _ => false
  end.

(** ** Text *)

Definition comma : ascii := ","%char.

(** [s.split(',')]: the parts between the commas, at least one part. *)
Fixpoint split (s : string) : list string :=
  match s with
  | EmptyString => [EmptyString]
  | String c s' =>
      if Ascii.eqb c comma then EmptyString :: split s'
      else match split s' with
           | [] => [String c EmptyString]
           | w :: ws => String c w :: ws
           end
  end.

(** [','.join(parts)] *)
Fixpoint join (parts : list string) : string :=
  match parts with
  | [] => EmptyString
  | [w] => w
  | w :: ws => w +:+ String comma (join ws)
  end.

Fixpoint comma_free (s : string) : bool :=
  match s with
  | EmptyString => true
  | String c s' => negb (Ascii.eqb c comma) && comma_free s'
  end.

(** ** [int(str)] and [str(int)] *)

(** Characters that [int] strips: the code points below 256 for which
    [str.isspace] holds. *)
Definition is_space (c : ascii) : bool :=
  let n := N_of_ascii c in
  ((9 <=? n) && (n <=? 13) || (28 <=? n) && (n <=? 32) ||
   (n =? 133) || (n =? 160))%N.

Definition digit_val (c : ascii) : option Z :=
  let n := N_of_ascii c in
  if ((48 <=? n) && (n <=? 57))%N then Some (Z.of_N n - 48) else None.

Fixpoint lstrip (s : string) : string :=
  match s with
  | String c s' => if is_space c then lstrip s' else s
  | EmptyString => EmptyString
  end.

Fixpoint rstrip (s : string) : string :=
  match s with
  | String c s' =>
      match rstrip s' with
      | EmptyString => if is_space c then EmptyString else String c EmptyString
      | r => String c r
      end
  | EmptyString => EmptyString
  end.

(** The digits after the first one, [acc] being the value read so far: a
    single underscore may stand between two digits. *)
Fixpoint digits_from (s : string) (acc : Z) : option Z :=
  match s with
  | EmptyString => Some acc
  | String c s' =>
      match digit_val c with
      | Some d => digits_from s' (10 * acc + d)
      | None =>
          if Ascii.eqb c "_"%char then
            match s' with
            | String c' s'' =>
                match digit_val c' with
                | Some d => digits_from s'' (10 * acc + d)
                | None => None
                end
            | EmptyString => None
            end
          else None
      end
  end.

Definition digits (s : string) : option Z :=
  match s with
  | String c s' =>
      match digit_val c with
      | Some d => digits_from s' d
      | None => None
      end
  | EmptyString => None
  end.

Definition signed_digits (s : string) : option Z :=
  match s with
  | String "+" s' => digits s'
  | String "-" s' => Z.opp <$> digits s'
  | _ => digits s
  end.

(** [int(tok)] for a [str] in base 10. *)
Definition int (tok : string) : result Z :=
  match signed_digits (rstrip (lstrip tok)) with
  | Some z => Ok z
  | None => Raise (ValueError (InvalidLiteral tok))
  end.

(** [str(z)] for an [int]. *)
Definition str_int (z : Z) : string :=
  NilZero.string_of_int (Z.to_int z).

Definition str_bool (b : bool) : string :=
  if b then "True" else "False".

(** No character of [s] is stripped by [int] or split at. *)
Fixpoint plain (s : string) : bool :=
  match s with
  | EmptyString => true
  | String c s' => negb (is_space c) && negb (Ascii.eqb c comma) && plain s'
  end.

(** ** [IntEnum] classes *)

(** A member of an enumeration: the class it belongs to, its name and its
    value. *)
Record member := Member { m_cls : string; m_name : string; m_value : Z }.

#[global] Instance member_eq_dec : EqDecision member.
Proof. solve_decision. Defined.

(** An [IntEnum] class is given by its name and the [NAME = value] lines
    of its body, in the order they are written. *)
Record IntEnum := { cls_name : string; cls_body : list (string * Z) }.

(** The member a value belongs to is the first name the body binds to that
    value; a later name bound to the same value is an alias of that
    member and creates no member of its own. *)
Definition value2member (E : IntEnum) (z : Z) : option member :=
  match find (fun nv => snd nv =? z) (cls_body E) with
  | Some (n, v) => Some (Member (cls_name E) n v)
  | None => None
  end.

(** [E(z)]: lookup by value. *)
Definition call (E : IntEnum) (z : Z) : result member :=
  match value2member E z with
  | Some m => Ok m
  | None => Raise (ValueError (NotAValid (cls_name E) z))
  end.

(** [E[n]], and the attribute [E.n]: lookup by name, aliases included. *)
Definition getitem_name (E : IntEnum) (n : string) : result member :=
  match find (fun nv => String.eqb (fst nv) n) (cls_body E) with
  | Some (_, v) => call E v
  | None => Raise (KeyError n)
  end.

(** [E.__members__]: every name of the body, aliases included. *)
Definition names (E : IntEnum) : list string := fst <$> cls_body E.

(** [list(E)]: the members, aliases excluded. *)
Definition members (E : IntEnum) : list member :=
  filter (fun m => value2member E (m_value m) = Some m)
         ((fun nv => Member (cls_name E) (fst nv) (snd nv)) <$> cls_body E).

(** The values for which the class has a member. *)
Definition codes (E : IntEnum) : list Z := m_value <$> members E.

Definition Control : IntEnum :=
  {| cls_name := "Control";
     cls_body := [("MOUSE", 0); ("MOUSE_AND_KEYBOARD", 1)] |}.

Definition Color : IntEnum :=
  {| cls_name := "Color";
     cls_body :=
       [("RED", 0); ("BLUE", 1); ("GREEN", 2); ("PINK", 3); ("ORANGE", 4);
        ("YELLOW", 5); ("BLACK", 6); ("WHITE", 7); ("PURPLE", 8);
        ("BROWN", 9); ("CYAN", 10); ("LIME", 11)] |}.

Definition Hat : IntEnum :=
  {| cls_name := "Hat";
     cls_body :=
       [("NONE", 0); ("PARTY", 28); ("FEDORA", 43); ("SKI", 44);
        ("SURGICAL_MASK", 47); ("COWBOY", 49); ("BANANA", 50);
        ("BALACLAVA", 51); ("MOUSE_EARS", 52); ("CHEESE", 53);
        ("CHERRY", 54); ("FRIED_EGG", 55); ("BLACK_HAT", 56);
        ("FLAMINGO", 57); ("FLOWER", 58); ("ROMAN", 59); ("LEAVES", 60);
        ("CROWN", 30); ("EYEBROWS", 31); ("HALO", 32); ("POINTED_HAT", 33);
        ("DIVING_GOGGLES", 36); ("STICKMAN", 37); ("TELESCOPE_EYE", 40);
        ("TOILET_PAPER", 41); ("LEPRECHAUN", 42); ("FLAT_CAP", 34);
        ("PLUNGER", 35); ("TOPEE", 38); ("SHERRIFF", 39); ("ANTENNA", 76);
        ("ASTRONAUT", 1); ("BALLOON", 77); ("BASEBALL_CAP", 2);
        ("NEST", 78); ("NINJA_HEADBAND", 79); ("ALIEN", 3);
        ("BROWN_HAT", 4); ("PILOT", 5); ("WET_FLOOR_SIGN", 80);
        ("CHEF", 81); ("BLUE_HAT", 82); ("BANDANA", 83);
        ("DOUBLE_TOP_HAT", 6); ("STICKY_NOTE", 84); ("FEZ", 85);
        ("FLOWER_POT", 7); ("PILOT_GREEN", 86); ("NIGHT_VISION", 8);
        ("ELVIS", 87); ("BUILDING_SITE", 9); ("UNKNOWN", 88);
        ("SOLDIER", 89); ("OFFICER", 10); ("MINIME", 90);
        ("NINJA_MASK", 90); ("PAPER", 11); ("CLOWN", 12); ("POLICE", 13);
        ("HORNS", 92); ("BOBBLE", 93); ("SURGEON", 14); ("TOPHAT", 15);
        ("TOWEL", 16); ("BEARSKIN", 17); ("VIKING", 18); ("SECURITY", 19);
        ("WHITE_TOPHAT", 29)] |}.

Definition Skin : IntEnum :=
  {| cls_name := "Skin";
     cls_body :=
       [("NONE", 0); ("ASTRONAUT", 1); ("PILOT", 2); ("BLUEY", 3);
        ("SOLDIER", 4); ("POLICE", 5); ("LAB_COAT", 6); ("SUIT_BLACK", 7);
        ("SUIT_WHITE", 8); ("SECURITY", 9)] |}.

Definition Pet : IntEnum :=
  {| cls_name := "Pet"; cls_body := [("NONE", 0)] |}.

Definition Language : IntEnum :=
  {| cls_name := "Language";
     cls_body :=
       [("ENGLISH", 0); ("SPANISH", 1); ("PORTOGUESE", 2); ("KOREAN", 3);
        ("RUSSIAN", 4)] |}.

(** ** Objects *)

Inductive value :=
| VStr (s : string)
| VInt (z : Z)
| VBool (b : bool)
| VEnum (m : member)    (* a member of one of the six classes *)
| VU8 (z : Z).          (* an instance of U8 *)

(** [str(v)].  Each of the six classes overrides [__str__] to return
    [str(self.value)]; [U8] inherits it from [int]. *)
Definition str (v : value) : string :=
  match v with
  | VStr s => s
  | VInt z => str_int z
  | VBool b => str_bool b
  | VEnum m => str_int (m_value m)
  | VU8 z => str_int z
  end.

(** [int(v)].  [bool], the enumerations and [U8] are subclasses of
    [int]. *)
Definition int_value (v : value) : result Z :=
  match v with
  | VStr s => int s
  | VInt z => Ok z
  | VBool b => Ok (if b then 1 else 0)
  | VEnum m => Ok (m_value m)
  | VU8 z => Ok z
  end.

Definition BOOL : gmap string bool := {[ "True" := true; "False" := false ]}.

(** [BOOL[key]] *)
Definition BOOL_getitem (key : string) : result bool :=
  match BOOL !! key with
  | Some b => Ok b
  | None => Raise (KeyError key)
  end.

(** [U8(v)]: [int.__new__] makes the integer from [v], then [__init__]
    checks [0 <= int(v) <= 255]. *)
Definition U8 (v : value) : result value :=
  z <- int_value v ;;
  if (0 <=? z) && (z <=? 255) then Ok (VU8 z)
  else Raise (ValueError (Msg "UInt7 must be between 0 and 255.")).

(** ** The record *)

Record PlayerPrefs := mkPlayerPrefs {
  name : value;
  control : value;
  color : value;
  unknown3 : value;
  unknown4 : value;
  unknown5 : value;
  unknown6 : value;
  unknown7 : value;
  unknown8 : value;
  unknown9 : value;
  hat : value;
  sfx : value;
  music : value;
  unknown13 : value;
  unknown14 : value;
  skin : value;
  pet : value;
  censor_chat : value;
  language : value;
  vsync : value;
  unknown20 : value;
  unknown21 : value
}.

(** [PlayerPrefs(a0, ..., a21)].  The [__init__] that [@dataclass]
    generates assigns each argument to its field; the class defines no
    [__post_init__], so nothing is checked and nothing is raised. *)
Definition new (a0 a1 a2 a3 a4 a5 a6 a7 a8 a9 a10 a11 a12 a13 a14 a15 a16
                  a17 a18 a19 a20 a21 : value) : result PlayerPrefs :=
  Ok (mkPlayerPrefs a0 a1 a2 a3 a4 a5 a6 a7 a8 a9 a10 a11 a12 a13 a14 a15
        a16 a17 a18 a19 a20 a21).

Definition __iter__ (self : PlayerPrefs) : list value :=
  [name self; control self; color self; unknown3 self; unknown4 self;
   unknown5 self; unknown6 self; unknown7 self; unknown8 self;
   unknown9 self; hat self; sfx self; music self; unknown13 self;
   unknown14 self; skin self; pet self; censor_chat self; language self;
   vsync self; unknown20 self; unknown21 self].

Definition __str__ (self : PlayerPrefs) : string :=
  join (str <$> __iter__ self).

(** [lst[i]] *)
Definition getitem (lst : list string) (i : nat) : result string :=
  match lst !! i with
  | Some tok => Ok tok
  | None => Raise IndexError
  end.

(** The expression [from_list] passes to the constructor for a field, as
    a function of the token [lst[i]] it is applied to. *)
Inductive conv :=
| AsStr                   (* lst[i] *)
| AsInt                   (* int(lst[i]) *)
| AsBool                  (* BOOL[lst[i]] *)
| AsEnum (E : IntEnum)    (* E(int(lst[i])) *)
| AsU8.                   (* U8(lst[i]) *)

Definition convert (c : conv) (tok : string) : result value :=
  match c with
  | AsStr => Ok (VStr tok)
  | AsInt => z <- int tok ;; Ok (VInt z)
  | AsBool => b <- BOOL_getitem tok ;; Ok (VBool b)
  | AsEnum E => z <- int tok ;; m <- call E z ;; Ok (VEnum m)
  | AsU8 => U8 (VStr tok)
  end.

Definition arg (c : conv) (lst : list string) (i : nat) : result value :=
  tok <- getitem lst i ;; convert c tok.

Definition from_list (lst : list string) : result PlayerPrefs :=
  if negb (length lst =? 22)%nat then
    Raise (ValueError (Msg "Excpected iterable with 22 fields."))
  else
    a0 <- arg AsStr lst 0 ;;
    a1 <- arg (AsEnum Control) lst 1 ;;
    a2 <- arg (AsEnum Color) lst 2 ;;
    a3 <- arg AsInt lst 3 ;;
    a4 <- arg AsBool lst 4 ;;
    a5 <- arg AsBool lst 5 ;;
    a6 <- arg AsBool lst 6 ;;
    a7 <- arg AsInt lst 7 ;;
    a8 <- arg AsBool lst 8 ;;
    a9 <- arg AsBool lst 9 ;;
    a10 <- arg (AsEnum Hat) lst 10 ;;
    a11 <- arg AsU8 lst 11 ;;
    a12 <- arg AsU8 lst 12 ;;
    a13 <- arg AsInt lst 13 ;;
    a14 <- arg AsInt lst 14 ;;
    a15 <- arg (AsEnum Skin) lst 15 ;;
    a16 <- arg (AsEnum Pet) lst 16 ;;
    a17 <- arg AsBool lst 17 ;;
    a18 <- arg (AsEnum Language) lst 18 ;;
    a19 <- arg AsBool lst 19 ;;
    a20 <- arg AsInt lst 20 ;;
    a21 <- arg AsInt lst 21 ;;
    new a0 a1 a2 a3 a4 a5 a6 a7 a8 a9 a10 a11 a12 a13 a14 a15 a16 a17 a18
      a19 a20 a21.

Definition from_string (string : string) : result PlayerPrefs :=
  from_list (split string).

(** ** The schema

    The 22 positions of the record, read off the class: position [i] is
    annotated with the type, and converted by [from_list] with the
    expression, that [schema !! i] names. *)
Definition schema : list conv :=
  [AsStr; AsEnum Control; AsEnum Color; AsInt; AsBool; AsBool; AsBool;
   AsInt; AsBool; AsBool; AsEnum Hat; AsU8; AsU8; AsInt; AsInt;
   AsEnum Skin; AsEnum Pet; AsBool; AsEnum Language; AsBool; AsInt; AsInt].

(** Converting the tokens from left to right, stopping at the first
    exception. *)
Fixpoint convert_all (cs : list conv) (lst : list string) : result (list value) :=
  match cs, lst with
  | c :: cs', tok :: lst' =>
      v <- convert c tok ;; vs <- convert_all cs' lst' ;; Ok (v :: vs)
  | _, _ => Ok []
  end.

(** The record whose fields are the 22 values [vs], in order. *)
Definition of_values (vs : list value) : result PlayerPrefs :=
  match vs with
  | [a0; a1; a2; a3; a4; a5; a6; a7; a8; a9; a10; a11; a12; a13; a14; a15;
     a16; a17; a18; a19; a20; a21] =>
      new a0 a1 a2 a3 a4 a5 a6 a7 a8 a9 a10 a11 a12 a13 a14 a15 a16 a17 a18
        a19 a20 a21
  | _ => Raise IndexError
  end.

(** [v] is an instance of the type a position is annotated with: a [str],
    an [int], a [bool], a member of the enumeration, or a [U8] that its
    constructor accepts. *)
Definition has_type (c : conv) (v : value) : bool :=
  match c, v with
  | AsStr, VStr _ => true
  | AsInt, VInt _ => true
  | AsBool, VBool _ => true
  | AsEnum E, VEnum m => bool_decide (m ∈ members E)
  | AsU8, VU8 z => (0 <=? z) && (z <=? 255)
  | _, _ => false
  end.

Fixpoint have_types (cs : list conv) (vs : list value) : bool :=
  match cs, vs with
  | c :: cs', v :: vs' => has_type c v && have_types cs' vs'
  | [], [] => true
  | _, _ => false
  end.

(** Every field of [r] lies in its declared domain. *)
Definition well_typed (r : PlayerPrefs) : bool :=
  have_types schema (__iter__ r).

(** The name of [r] is a [str] without a comma. *)
Definition name_comma_free (r : PlayerPrefs) : bool :=
  match name r with
  | VStr s => comma_free s
  | _ => false
  end.

(** ** Example inputs *)

Definition sample : string :=
  "Bob,1,2,0,True,False,True,0,False,True,30,100,100,0,0,3,0,True,0,False,0,0".

Definition sample_record : PlayerPrefs :=
  mkPlayerPrefs (VStr "Bob") (VEnum (Member "Control" "MOUSE_AND_KEYBOARD" 1))
    (VEnum (Member "Color" "GREEN" 2)) (VInt 0) (VBool true) (VBool false)
    (VBool true) (VInt 0) (VBool false) (VBool true)
    (VEnum (Member "Hat" "CROWN" 30)) (VU8 100) (VU8 100) (VInt 0) (VInt 0)
    (VEnum (Member "Skin" "BLUEY" 3)) (VEnum (Member "Pet" "NONE" 0))
    (VBool true) (VEnum (Member "Language" "ENGLISH" 0)) (VBool false)
    (VInt 0) (VInt 0).

(** The sample with the boolean token of position 4 in lower case. *)
Definition sample_lower_bool : string :=
  "Bob,1,2,0,true,False,True,0,False,True,30,100,100,0,0,3,0,True,0,False,0,0".

(** The sample with the hat token 90. *)
Definition sample_hat_90 : string :=
  "Bob,1,2,0,True,False,True,0,False,True,90,100,100,0,0,3,0,True,0,False,0,0".

(** The sample without its last field, and with one field more. *)
Definition sample_21 : string :=
  "Bob,1,2,0,True,False,True,0,False,True,30,100,100,0,0,3,0,True,0,False,0".

Definition sample_23 : string :=
  "Bob,1,2,0,True,False,True,0,False,True,30,100,100,0,0,3,0,True,0,False,0,0,0".

(** ** Counting commas, numeric positions, streams *)

(** The number of commas of [s]. *)
Fixpoint count_commas (s : string) : nat :=
  match s with
  | EmptyString => 0%nat
  | String c s' => if Ascii.eqb c comma then S (count_commas s') else count_commas s'
  end.

(** The conversions that read their token with [int]. *)
Definition numeric (c : conv) : bool :=
  match c with
  | AsInt | AsEnum _ | AsU8 => true
  | AsStr | AsBool => false
  end.

(** An in-memory text stream, [io.StringIO]: its text and the position
    of the next character to read. *)
Record StringIO := mkStringIO { getvalue : string; tell : nat }.

(** [s[n:]] *)
Fixpoint skip (n : nat) (s : string) : string :=
  match n, s with
  | O, _ => s
  | S n', String _ s' => skip n' s'
  | S _, EmptyString => EmptyString
  end.

(** [buf.read()]: the text from the position to the end; the position
    moves to the end, and stays where it is when it is beyond. *)
Definition read (buf : StringIO) : string * StringIO :=
  (skip (tell buf) (getvalue buf),
   mkStringIO (getvalue buf)
     (Nat.max (tell buf) (String.length (getvalue buf)))).

Definition from_buffer (buf : StringIO) : result PlayerPrefs * StringIO :=
  let (text, buf') := read buf in (from_string text, buf').

(** ** Further example inputs *)

(** The sample with numerals that are not in canonical form: a space
    before the control, a sign before the color, an underscore in
    unknown3, a leading zero in the hat, a space after the last field. *)
Definition sample_spaced : string :=
  "Bob, 1,+2,0_0,True,False,True,0,False,True,030,100,100,0,0,3,0,True,0,False,0,0 ".

(** The sample record under a name with a comma. *)
Definition sample_record_comma : PlayerPrefs :=
  mkPlayerPrefs (VStr "Bob, Jr.") (VEnum (Member "Control" "MOUSE_AND_KEYBOARD" 1))
    (VEnum (Member "Color" "GREEN" 2)) (VInt 0) (VBool true) (VBool false)
    (VBool true) (VInt 0) (VBool false) (VBool true)
    (VEnum (Member "Hat" "CROWN" 30)) (VU8 100) (VU8 100) (VInt 0) (VInt 0)
    (VEnum (Member "Skin" "BLUEY" 3)) (VEnum (Member "Pet" "NONE" 0))
    (VBool true) (VEnum (Member "Language" "ENGLISH" 0)) (VBool false)
    (VInt 0) (VInt 0).

(** The sample with two invalid fields: the color 12 and, after it, the
    boolean [yes] at position 5. *)
Definition sample_two_errors : string :=
  "Bob,1,12,0,True,yes,True,0,False,True,30,100,100,0,0,3,0,True,0,False,0,0".

(** * Properties *)

(** ** Splitting and joining *)

Lemma split_nonempty (s : string) : split s <> [].
Proof.
  destruct s as [|c s]; simpl; [discriminate|].
  destruct (Ascii.eqb c comma); [discriminate|].
  destruct (split s); discriminate.
Qed.

Lemma split_comma_free (s : string) :
  comma_free s = true -> split s = [s].
Proof.
  induction s as [|c s IH]; simpl; [reflexivity|].
  intros [Hc Hs]%andb_prop.
  destruct (Ascii.eqb c comma); [discriminate|].
  now rewrite (IH Hs).
Qed.

Lemma split_app_comma (w s : string) :
  comma_free w = true -> split (w +:+ String comma s) = w :: split s.
Proof.
  induction w as [|c w IH]; simpl; [reflexivity|].
  intros [Hc Hw]%andb_prop.
  destruct (Ascii.eqb c comma); [discriminate|].
  now rewrite (IH Hw).
Qed.

Lemma split_join (parts : list string) :
  parts <> [] ->
  Forall (fun w => comma_free w = true) parts ->
  split (join parts) = parts.
Proof.
  induction parts as [|w ws IH]; [congruence|].
  intros _ Hall.
  apply Forall_cons_1 in Hall as [Hw Hws].
  destruct ws as [|w' ws].
  - now apply split_comma_free.
  - change (join (w :: w' :: ws)) with (w +:+ String comma (join (w' :: ws))).
    rewrite split_app_comma by assumption.
    f_equal. apply IH; [discriminate|assumption].
Qed.

(** ** Decimal numerals *)

Lemma plain_comma_free (s : string) : plain s = true -> comma_free s = true.
Proof.
  induction s as [|c s IH]; simpl; [reflexivity|].
  intros [[_ Hc]%andb_prop Hs]%andb_prop. rewrite Hc. now apply IH.
Qed.

Lemma plain_lstrip (s : string) : plain s = true -> lstrip s = s.
Proof.
  destruct s as [|c s]; simpl; [reflexivity|].
  intros [[Hc _]%andb_prop _]%andb_prop.
  now destruct (is_space c).
Qed.

Lemma plain_rstrip (s : string) : plain s = true -> rstrip s = s.
Proof.
  induction s as [|c s IH]; simpl; [reflexivity|].
  intros [[Hc _]%andb_prop Hs]%andb_prop.
  rewrite (IH Hs). destruct s; [|reflexivity].
  now destruct (is_space c).
Qed.

Lemma plain_uint (d : Decimal.uint) : plain (NilEmpty.string_of_uint d) = true.
Proof. induction d; simpl; auto. Qed.

Lemma plain_str_int (z : Z) : plain (str_int z) = true.
Proof.
  unfold str_int.
  destruct (Z.to_int z) as [d|d]; simpl;
    (destruct d; [reflexivity | apply (plain_uint (_ _)) ..]).
Qed.

(** Reading the digits of [d] after [acc] is what [Pos.of_uint_acc]
    computes. *)
Lemma digits_from_acc (d : Decimal.uint) (acc : positive) :
  digits_from (NilEmpty.string_of_uint d) (Z.pos acc)
  = Some (Z.pos (Pos.of_uint_acc d acc)).
Proof.
  revert acc.
  induction d; intros acc; simpl; [reflexivity | rewrite <- IHd; f_equal; lia ..].
Qed.

Lemma digits_from_zero (d : Decimal.uint) :
  digits_from (NilEmpty.string_of_uint d) 0 = Some (Z.of_uint d).
Proof.
  unfold Z.of_uint.
  induction d; [reflexivity | exact IHd | exact (digits_from_acc d _) ..].
Qed.

Lemma digits_uint (d : Decimal.uint) :
  digits (NilZero.string_of_uint d) = Some (Z.of_uint d).
Proof.
  destruct d;
    [reflexivity | exact (digits_from_zero d) | exact (digits_from_acc d _) ..].
Qed.

Lemma signed_digits_int (i : Decimal.signed_int) :
  signed_digits (NilZero.string_of_int i) = Some (Z.of_int i).
Proof.
  destruct i as [d|d].
  - change (Z.of_int (Decimal.Pos d)) with (Z.of_uint d).
    rewrite <- digits_uint. now destruct d.
  - change (Z.of_int (Decimal.Neg d)) with (- Z.of_uint d).
    change (signed_digits (NilZero.string_of_int (Decimal.Neg d)))
      with (Z.opp <$> digits (NilZero.string_of_uint d)).
    now rewrite digits_uint.
Qed.

(** [int(str(z)) == z] *)
Lemma int_str_int (z : Z) : int (str_int z) = Ok z.
Proof.
  unfold int.
  rewrite plain_lstrip, plain_rstrip by apply plain_str_int.
  unfold str_int. now rewrite signed_digits_int, DecimalZ.of_to.
Qed.

Lemma comma_free_str_int (z : Z) : comma_free (str_int z) = true.
Proof. apply plain_comma_free, plain_str_int. Qed.

(** ** Enumerations *)

Section Enumerations.

Variable E : IntEnum.

Lemma value2member_value (z : Z) (m : member) :
  value2member E z = Some m -> m_value m = z.
Proof.
  unfold value2member.
  destruct (find _ _) as [[n v]|] eqn:Hfind; [|discriminate].
  apply find_some in Hfind as [_ Hv]. simpl in Hv.
  intros [= <-]. simpl. lia.
Qed.

Lemma value2member_members (z : Z) (m : member) :
  value2member E z = Some m -> m ∈ members E.
Proof.
  intros Hm. pose proof (value2member_value _ _ Hm) as Hz.
  unfold members. apply list_elem_of_filter. split.
  - now rewrite Hz.
  - unfold value2member in Hm.
    destruct (find _ _) as [[n v]|] eqn:Hfind; [|discriminate].
    apply find_some in Hfind as [Hin _]. injection Hm as <-.
    apply list_elem_of_fmap. exists (n, v).
    split; [reflexivity | now apply list_elem_of_In].
Qed.

(** Looking a member up by its value gives the member back. *)
Lemma call_member (m : member) :
  m ∈ members E -> call E (m_value m) = Ok m.
Proof.
  unfold members, call. intros [Hm _]%list_elem_of_filter. now rewrite Hm.
Qed.

Lemma call_Ok (z : Z) (m : member) :
  call E z = Ok m -> m ∈ members E /\ m_value m = z.
Proof.
  unfold call. destruct (value2member E z) as [m'|] eqn:Hm; [|discriminate].
  intros [= <-]. eauto using value2member_members, value2member_value.
Qed.

(** Lookup by value succeeds exactly on the codes of the class. *)
Lemma call_codes (z : Z) :
  z ∈ codes E <-> exists m, call E z = Ok m.
Proof.
  unfold codes. rewrite list_elem_of_fmap. split.
  - intros (m & -> & Hm). eauto using call_member.
  - intros [m [Hm Hz]%call_Ok]. eauto.
Qed.

Lemma call_undefined (z : Z) :
  z ∉ codes E -> call E z = Raise (ValueError (NotAValid (cls_name E) z)).
Proof.
  intros Hz. unfold call.
  destruct (value2member E z) as [m|] eqn:Hm; [|reflexivity].
  destruct Hz. apply call_codes. exists m. unfold call. now rewrite Hm.
Qed.

End Enumerations.

(** ** Booleans and bounded integers *)

Lemma BOOL_lookup_None (key : string) :
  BOOL !! key = None <-> key <> "True" /\ key <> "False".
Proof.
  unfold BOOL. rewrite lookup_insert_None, lookup_singleton_None.
  intuition congruence.
Qed.

Lemma BOOL_getitem_str_bool (b : bool) : BOOL_getitem (str_bool b) = Ok b.
Proof. now destruct b. Qed.

Lemma BOOL_getitem_missing (key : string) :
  key <> "True" -> key <> "False" -> BOOL_getitem key = Raise (KeyError key).
Proof.
  intros H1 H2. unfold BOOL_getitem.
  now rewrite (proj2 (BOOL_lookup_None key)).
Qed.

Lemma U8_in_range (v : value) (z : Z) :
  int_value v = Ok z -> 0 <= z <= 255 -> U8 v = Ok (VU8 z).
Proof.
  intros Hv Hz. unfold U8. rewrite Hv. simpl.
  now rewrite (proj2 (Z.leb_le 0 z)), (proj2 (Z.leb_le z 255)) by lia.
Qed.

Lemma U8_out_of_range (v : value) (z : Z) :
  int_value v = Ok z -> ~ 0 <= z <= 255 ->
  U8 v = Raise (ValueError (Msg "UInt7 must be between 0 and 255.")).
Proof.
  intros Hv Hz. unfold U8. rewrite Hv. simpl.
  destruct (Z.leb_spec 0 z), (Z.leb_spec z 255); simpl; try reflexivity; lia.
Qed.

(** ** Conversions *)

(** A conversion yields an instance of the type of its position. *)
Lemma convert_has_type (c : conv) (tok : string) (v : value) :
  convert c tok = Ok v -> has_type c v = true.
Proof.
  destruct c; simpl.
  - now intros [= <-].
  - destruct (int tok); simpl; [now intros [= <-] | discriminate].
  - destruct (BOOL_getitem tok); simpl; [now intros [= <-] | discriminate].
  - destruct (int tok) as [z|]; simpl; [|discriminate].
    destruct (call E z) as [m|] eqn:Hm; simpl; [|discriminate].
    intros [= <-]. simpl. apply bool_decide_eq_true. now apply call_Ok in Hm.
  - unfold U8. destruct (int_value _) as [z|]; simpl; [|discriminate].
    destruct (_ && _) eqn:Hz; [|discriminate]. now intros [= <-].
Qed.

(** Rendering an instance of the type of a position and converting the
    token back gives the instance. *)
Lemma convert_str (c : conv) (v : value) :
  has_type c v = true -> convert c (str v) = Ok v.
Proof.
  destruct c, v; simpl; try discriminate; intros Hv.
  - reflexivity.
  - now rewrite int_str_int.
  - now rewrite BOOL_getitem_str_bool.
  - apply bool_decide_eq_true in Hv.
    rewrite int_str_int. simpl. now rewrite call_member.
  - apply andb_prop in Hv as [H0%Z.leb_le H255%Z.leb_le].
    apply U8_in_range; [apply int_str_int | lia].
Qed.

Lemma comma_free_str (c : conv) (v : value) :
  has_type c v = true -> c <> AsStr -> comma_free (str v) = true.
Proof.
  destruct c, v; simpl; try discriminate; intros _ Hc;
    try apply comma_free_str_int; [congruence | now destruct b].
Qed.

(** ** Converting a list of tokens *)

Lemma convert_all_Ok_cons (c : conv) (cs : list conv) (tok : string)
    (lst : list string) (ws : list value) :
  convert_all (c :: cs) (tok :: lst) = Ok ws ->
  exists v vs, ws = v :: vs /\ convert c tok = Ok v /\ convert_all cs lst = Ok vs.
Proof.
  simpl. destruct (convert c tok) as [v|]; simpl; [|discriminate].
  destruct (convert_all cs lst) as [vs|]; simpl; [|discriminate].
  intros [= <-]. eauto.
Qed.

Lemma convert_all_length (cs : list conv) (lst : list string) (vs : list value) :
  length cs = length lst -> convert_all cs lst = Ok vs -> length vs = length lst.
Proof.
  revert lst vs. induction cs as [|c cs IH]; intros [|tok lst] vs Hlen;
    try discriminate.
  - now intros [= <-].
  - intros (v & vs' & -> & _ & Hvs)%convert_all_Ok_cons.
    simpl. f_equal. apply (IH lst); [now injection Hlen | assumption].
Qed.

Lemma convert_all_lookup (cs : list conv) (lst : list string) (vs : list value)
    (i : nat) (c : conv) (tok : string) :
  convert_all cs lst = Ok vs -> cs !! i = Some c -> lst !! i = Some tok ->
  exists v, vs !! i = Some v /\ convert c tok = Ok v.
Proof.
  revert lst vs i.
  induction cs as [|c' cs IH]; intros [|tok' lst] vs i Hall Hc Htok;
    try (simpl in *; discriminate).
  apply convert_all_Ok_cons in Hall as (v & vs' & -> & Hv & Hvs).
  destruct i as [|i]; simpl in *.
  - injection Hc as ->. injection Htok as ->. eauto.
  - eauto.
Qed.

Lemma convert_all_have_types (cs : list conv) (lst : list string) (vs : list value) :
  length cs = length lst -> convert_all cs lst = Ok vs -> have_types cs vs = true.
Proof.
  revert lst vs. induction cs as [|c cs IH]; intros [|tok lst] vs Hlen;
    try discriminate.
  - now intros [= <-].
  - intros (v & vs' & -> & Hv & Hvs)%convert_all_Ok_cons. simpl.
    rewrite (convert_has_type _ _ _ Hv). apply (IH lst); [now injection Hlen | assumption].
Qed.

(** Replacing a token by one that converts replaces the value. *)
Lemma convert_all_insert_Ok (cs : list conv) (lst : list string) (vs : list value)
    (i : nat) (c : conv) (tok : string) (v : value) :
  convert_all cs lst = Ok vs -> cs !! i = Some c -> convert c tok = Ok v ->
  convert_all cs (<[i:=tok]> lst) = Ok (<[i:=v]> vs).
Proof.
  revert lst vs i.
  induction cs as [|c' cs IH]; intros [|tok' lst] vs i Hall Hc Hv;
    try (simpl in *; discriminate).
  { simpl in Hall. now injection Hall as <-. }
  apply convert_all_Ok_cons in Hall as (v' & vs' & -> & Hv' & Hvs).
  destruct i as [|i]; simpl in *.
  - injection Hc as ->. now rewrite Hv, Hvs.
  - rewrite Hv'. simpl. now rewrite (IH _ _ _ Hvs Hc Hv).
Qed.

(** Replacing a token by one that does not convert raises its exception:
    the tokens before it converted. *)
Lemma convert_all_insert_Raise (cs : list conv) (lst : list string)
    (vs : list value) (i : nat) (c : conv) (tok : string) (e : exn) :
  convert_all cs lst = Ok vs -> cs !! i = Some c -> (i < length lst)%nat ->
  convert c tok = Raise e ->
  convert_all cs (<[i:=tok]> lst) = Raise e.
Proof.
  revert lst vs i.
  induction cs as [|c' cs IH]; intros [|tok' lst] vs i Hall Hc Hi He;
    try (simpl in *; discriminate); simpl in Hi; try lia.
  apply convert_all_Ok_cons in Hall as (v' & vs' & -> & Hv' & Hvs).
  destruct i as [|i]; simpl in *.
  - injection Hc as ->. now rewrite He.
  - rewrite Hv'. simpl.
    rewrite (IH _ _ _ Hvs Hc) by (assumption || lia). reflexivity.
Qed.

(** The exception raised is that of the first token that does not
    convert. *)
Lemma convert_all_first_Raise (cs : list conv) (lst : list string)
    (i : nat) (c : conv) (tok : string) (e : exn) :
  (forall j c' t, (j < i)%nat -> cs !! j = Some c' -> lst !! j = Some t ->
                  exists v, convert c' t = Ok v) ->
  cs !! i = Some c -> lst !! i = Some tok -> convert c tok = Raise e ->
  convert_all cs lst = Raise e.
Proof.
  revert lst i.
  induction cs as [|c' cs IH]; intros [|tok' lst] i Hbefore Hc Htok He;
    try (simpl in *; discriminate).
  destruct i as [|i]; simpl in *.
  - injection Hc as ->. injection Htok as ->. now rewrite He.
  - destruct (Hbefore 0%nat c' tok') as [v ->]; [lia | reflexivity .. |].
    simpl. rewrite (IH lst i); try assumption; [reflexivity|].
    intros j c'' t Hj. apply (Hbefore (S j)). lia.
Qed.

(** Rendering well-typed values and converting the tokens back. *)
Lemma convert_all_str (cs : list conv) (vs : list value) :
  have_types cs vs = true -> convert_all cs (str <$> vs) = Ok vs.
Proof.
  revert vs. induction cs as [|c cs IH]; intros [|v vs]; try discriminate.
  - reflexivity.
  - intros [Hv Hvs]%andb_prop.
    rewrite fmap_cons. cbn [convert_all].
    now rewrite (convert_str _ _ Hv), (IH _ Hvs).
Qed.

(** ** [from_list] by the schema *)

Lemma of_values_iter (r : PlayerPrefs) : of_values (__iter__ r) = Ok r.
Proof. now destruct r. Qed.

Lemma of_values_Ok (vs : list value) (r : PlayerPrefs) :
  of_values vs = Ok r -> vs = __iter__ r.
Proof.
  do 22 (destruct vs as [|? vs]; [discriminate|]).
  destruct vs; [|discriminate]. now intros [= <-].
Qed.

(** [from_list] converts the tokens by the schema, from left to right, and
    builds the record from the values. *)
Lemma from_list_schema (lst : list string) :
  from_list lst =
  if negb (length lst =? 22)%nat then
    Raise (ValueError (Msg "Excpected iterable with 22 fields."))
  else vs <- convert_all schema lst ;; of_values vs.
Proof.
  unfold from_list.
  destruct (length lst =? 22)%nat eqn:Hlen; [|reflexivity].
  apply Nat.eqb_eq in Hlen.
  do 22 (destruct lst as [|? lst]; [discriminate|]).
  destruct lst; [|discriminate].
  cbn -[convert]. unfold bind.
  repeat match goal with
         | |- match ?x with _ => _ end = _ =>
             destruct x; cbv beta iota; [|reflexivity]
         end.
  reflexivity.
Qed.

Lemma from_list_Ok (lst : list string) (r : PlayerPrefs) :
  from_list lst = Ok r <->
  length lst = 22%nat /\ convert_all schema lst = Ok (__iter__ r).
Proof.
  rewrite from_list_schema.
  destruct (Nat.eqb_spec (length lst) 22) as [Hlen|Hlen]; cbn [negb].
  - split.
    + destruct (convert_all schema lst) as [vs|]; cbn [bind]; [|discriminate].
      intros Hr. apply of_values_Ok in Hr as ->. auto.
    + intros [_ ->]. cbn [bind]. apply of_values_iter.
  - split; [discriminate | intros [? _]; contradiction].
Qed.

Lemma from_list_Raise (lst : list string) (e : exn) :
  length lst = 22%nat -> convert_all schema lst = Raise e ->
  from_list lst = Raise e.
Proof.
  intros Hlen He. rewrite from_list_schema, Hlen, He. reflexivity.
Qed.

(** A decoded record is well typed. *)
Lemma from_list_well_typed (lst : list string) (r : PlayerPrefs) :
  from_list lst = Ok r -> well_typed r = true.
Proof.
  intros [Hlen Hvs]%from_list_Ok.
  apply (convert_all_have_types schema lst); [now rewrite Hlen | assumption].
Qed.

Lemma of_values_length (vs : list value) :
  length vs = 22%nat -> exists r, of_values vs = Ok r /\ __iter__ r = vs.
Proof.
  intros Hlen.
  do 22 (destruct vs as [|? vs]; [discriminate|]).
  destruct vs; [|discriminate]. eexists. split; reflexivity.
Qed.

Lemma schema_lookup_lt (i : nat) (c : conv) : schema !! i = Some c -> (i < 22)%nat.
Proof. intros Hc. apply lookup_lt_Some in Hc. exact Hc. Qed.

(** Replacing one token of a list that decodes by a token that converts:
    the list decodes, to the record with that one field replaced. *)
Lemma from_list_insert_Ok (lst : list string) (r : PlayerPrefs) (i : nat)
    (c : conv) (tok : string) (v : value) :
  from_list lst = Ok r -> schema !! i = Some c -> convert c tok = Ok v ->
  exists r', from_list (<[i:=tok]> lst) = Ok r'
             /\ __iter__ r' = <[i:=v]> (__iter__ r).
Proof.
  intros [Hlen Hvs]%from_list_Ok Hc Hv.
  destruct (of_values_length (<[i:=v]> (__iter__ r))) as (r' & _ & Hr').
  { now rewrite length_insert. }
  exists r'. split; [|assumption].
  apply from_list_Ok. split; [now rewrite length_insert|].
  rewrite Hr'. eapply convert_all_insert_Ok; eassumption.
Qed.

(** Replacing one token of a list that decodes by a token that does not
    convert: the exception of that conversion is raised. *)
Lemma from_list_insert_Raise (lst : list string) (r : PlayerPrefs) (i : nat)
    (c : conv) (tok : string) (e : exn) :
  from_list lst = Ok r -> schema !! i = Some c -> convert c tok = Raise e ->
  from_list (<[i:=tok]> lst) = Raise e.
Proof.
  intros [Hlen Hvs]%from_list_Ok Hc He.
  apply from_list_Raise; [now rewrite length_insert|].
  eapply convert_all_insert_Raise; try eassumption.
  rewrite Hlen. eapply schema_lookup_lt; eassumption.
Qed.

(** A token that does not convert makes the decoding of 22 tokens fail. *)
Lemma from_list_Raise_at (lst : list string) (i : nat) (c : conv)
    (tok : string) (e : exn) :
  length lst = 22%nat -> schema !! i = Some c -> lst !! i = Some tok ->
  convert c tok = Raise e ->
  exists e', from_list lst = Raise e'.
Proof.
  intros Hlen Hc Htok He.
  destruct (from_list lst) as [r|e'] eqn:Hr; [|eauto].
  apply from_list_Ok in Hr as [_ Hvs].
  destruct (convert_all_lookup _ _ _ _ _ _ Hvs Hc Htok) as (v & _ & Hv).
  congruence.
Qed.

(** The position of a field in [__iter__]. *)
Lemma iter_insert_lookup (r r' : PlayerPrefs) (i : nat) (v : value) :
  (i < 22)%nat -> __iter__ r' = <[i:=v]> (__iter__ r) -> __iter__ r' !! i = Some v.
Proof.
  intros Hi ->. apply list_lookup_insert_eq. exact Hi.
Qed.

Lemma have_types_comma_free (cs : list conv) (vs : list value) :
  have_types cs vs = true -> Forall (fun c => c <> AsStr) cs ->
  Forall (fun w => comma_free w = true) (str <$> vs).
Proof.
  revert vs. induction cs as [|c cs IH]; intros [|v vs]; try discriminate.
  - constructor.
  - simpl. intros [Hv Hvs]%andb_prop [Hc Hcs]%Forall_cons_1.
    constructor; [now apply (comma_free_str c) | now apply IH].
Qed.

Lemma schema_tail_not_str : Forall (fun c => c <> AsStr) (tail schema).
Proof. repeat constructor; discriminate. Qed.

(** The positions converted by [BOOL]. *)
Lemma schema_bool (i : nat) :
  schema !! i = Some AsBool <-> In i [4; 5; 6; 8; 9; 17; 19]%nat.
Proof.
  split.
  - intros Hi. pose proof (schema_lookup_lt _ _ Hi) as Hlt.
    do 22 (destruct i as [|i]; [simpl in *; (discriminate || tauto)|]). lia.
  - simpl. intros H. repeat (destruct H as [<-|H]; [reflexivity|]). destruct H.
Qed.

Lemma convert_bool_missing (tok : string) :
  tok <> "True" -> tok <> "False" -> convert AsBool tok = Raise (KeyError tok).
Proof.
  intros H1 H2. simpl. now rewrite BOOL_getitem_missing.
Qed.

Lemma convert_enum_undefined (E : IntEnum) (tok : string) (z : Z) :
  int tok = Ok z -> z ∉ codes E ->
  convert (AsEnum E) tok = Raise (ValueError (NotAValid (cls_name E) z)).
Proof.
  intros Hz Hundef. simpl. rewrite Hz. simpl. now rewrite call_undefined.
Qed.

Lemma convert_U8_in_range (tok : string) (z : Z) :
  int tok = Ok z -> 0 <= z <= 255 -> convert AsU8 tok = Ok (VU8 z).
Proof. intros Hz Hr. now apply U8_in_range. Qed.

Lemma convert_U8_out_of_range (tok : string) (z : Z) :
  int tok = Ok z -> ~ 0 <= z <= 255 ->
  convert AsU8 tok = Raise (ValueError (Msg "UInt7 must be between 0 and 255.")).
Proof. intros Hz Hr. now apply U8_out_of_range with z. Qed.

(** * The claims *)

(** C1. Round trip: for every record whose fields all lie in their
    declared domains (a [str] name, members of the six enumerations, [int]
    and [bool] fields, [U8] values within 0..255) and whose name has no
    comma, decoding the encoding of the record gives the record back,
    field for field. *)
Theorem roundtrip (r : PlayerPrefs) :
  well_typed r = true -> name_comma_free r = true ->
  from_string (__str__ r) = Ok r.
Proof.
  intros Hty Hname. unfold from_string, __str__.
  assert (Hfree : Forall (fun w => comma_free w = true) (str <$> __iter__ r)).
  { apply Forall_cons; split.
    - unfold name_comma_free in Hname. now destruct (name r).
    - apply (have_types_comma_free (tail schema) (tail (__iter__ r)));
        [|exact schema_tail_not_str].
      now apply andb_prop in Hty as [_ Htail]. }
  rewrite split_join; [|now destruct r | exact Hfree].
  apply from_list_Ok. split; [now destruct r|].
  now apply convert_all_str.
Qed.

Lemma roundtrip_witness :
  well_typed sample_record = true /\ name_comma_free sample_record = true /\
  from_string (__str__ sample_record) = Ok sample_record.
Proof.
  split; [vm_compute; reflexivity|]. split; [vm_compute; reflexivity|].
  apply (roundtrip sample_record); vm_compute; reflexivity.
Defined.

(** C2, as stated, fails: the constructor accepts an integer that is no
    code of [Color] as the color and an integer above 255 as the sfx
    volume, where decoding the same values from text fails. *)
Lemma new_accepts_undefined_code_and_out_of_range :
  (12 ∉ codes Color) /\ (~ 0 <= 300 <= 255) /\
  (exists r,
     new (VStr "Bob") (VEnum (Member "Control" "MOUSE" 0)) (VInt 12) (VInt 0)
       (VBool true) (VBool false) (VBool true) (VInt 0) (VBool false)
       (VBool true) (VEnum (Member "Hat" "CROWN" 30)) (VInt 300) (VU8 100)
       (VInt 0) (VInt 0) (VEnum (Member "Skin" "BLUEY" 3))
       (VEnum (Member "Pet" "NONE" 0)) (VBool true)
       (VEnum (Member "Language" "ENGLISH" 0)) (VBool false) (VInt 0)
       (VInt 0) = Ok r
     /\ color r = VInt 12 /\ sfx r = VInt 300 /\ well_typed r = false) /\
  from_string
    "Bob,0,12,0,True,False,True,0,False,True,30,300,100,0,0,3,0,True,0,False,0,0"
  = Raise (ValueError (NotAValid "Color" 12)) /\
  from_string
    "Bob,0,2,0,True,False,True,0,False,True,30,300,100,0,0,3,0,True,0,False,0,0"
  = Raise (ValueError (Msg "UInt7 must be between 0 and 255.")).
Proof.
  split; [|split; [lia|split]].
  - compute_done.
  - eexists. split; [reflexivity|]. repeat split; vm_compute; reflexivity.
  - split; vm_compute; reflexivity.
Qed.

(** C2, amended.  Constructing a record from 22 values never fails and
    stores the values as they are given.  The checks that decoding makes
    are those of the constructors of the field types: looking an
    enumeration up by value succeeds, with a member of that value, for
    every code of the enumeration and fails for every other integer, and
    [U8] succeeds for every value within 0..255 and fails for every
    other; decoding applies them to every token, so that a decoded record
    has all its fields in their domains. *)
Theorem construction_unchecked_types_validate
    (a0 a1 a2 a3 a4 a5 a6 a7 a8 a9 a10 a11 a12 a13 a14 a15 a16 a17 a18 a19
       a20 a21 : value) (E : IntEnum) (z : Z) (v : value)
    (lst : list string) (r : PlayerPrefs) :
  new a0 a1 a2 a3 a4 a5 a6 a7 a8 a9 a10 a11 a12 a13 a14 a15 a16 a17 a18 a19
    a20 a21
  = Ok (mkPlayerPrefs a0 a1 a2 a3 a4 a5 a6 a7 a8 a9 a10 a11 a12 a13 a14 a15
          a16 a17 a18 a19 a20 a21) /\
  (z ∈ codes E ->
   exists m, call E z = Ok m /\ m_value m = z /\ m ∈ members E) /\
  (z ∉ codes E -> call E z = Raise (ValueError (NotAValid (cls_name E) z))) /\
  (int_value v = Ok z -> 0 <= z <= 255 -> U8 v = Ok (VU8 z)) /\
  (int_value v = Ok z -> ~ 0 <= z <= 255 ->
   U8 v = Raise (ValueError (Msg "UInt7 must be between 0 and 255."))) /\
  (from_list lst = Ok r -> well_typed r = true).
Proof.
  split; [reflexivity|]. split; [|split; [|split; [|split]]].
  - intros [m Hm]%call_codes. exists m. split; [assumption|].
    apply call_Ok in Hm as [? ?]. auto.
  - apply call_undefined.
  - apply U8_in_range.
  - apply U8_out_of_range.
  - apply from_list_well_typed.
Qed.

Lemma construction_unchecked_types_validate_witness :
  (exists m, call Color 11 = Ok m /\ m_value m = 11 /\ m ∈ members Color) /\
  call Hat 91 = Raise (ValueError (NotAValid "Hat" 91)) /\
  U8 (VInt 255) = Ok (VU8 255) /\
  U8 (VInt 256) = Raise (ValueError (Msg "UInt7 must be between 0 and 255.")) /\
  well_typed sample_record = true.
Proof.
  pose (a := VInt 0). pose (l := split sample). pose (r := sample_record).
  split; [|split; [|split; [|split]]].
  - apply (construction_unchecked_types_validate a a a a a a a a a a a a a
             a a a a a a a a a Color 11 a l r).
    compute_done.
  - apply (construction_unchecked_types_validate a a a a a a a a a a a a a
             a a a a a a a a a Hat 91 a l r).
    compute_done.
  - apply (construction_unchecked_types_validate a a a a a a a a a a a a a
             a a a a a a a a a Hat 255 (VInt 255) l r); [reflexivity | lia].
  - apply (construction_unchecked_types_validate a a a a a a a a a a a a a
             a a a a a a a a a Hat 256 (VInt 256) l r); [reflexivity | lia].
  - apply (construction_unchecked_types_validate a a a a a a a a a a a a a
             a a a a a a a a a Hat 0 a l r).
    vm_compute. reflexivity.
Defined.

(** C3, as stated, fails: a record of 22 fields whose boolean token at
    position 4 is [true] fails to decode with a [KeyError], which is not
    of the [ValueError] class. *)
Lemma bool_token_raises_KeyError :
  length (split sample_lower_bool) = 22%nat /\
  split sample_lower_bool !! 4%nat = Some "true" /\
  from_string sample_lower_bool = Raise (KeyError "true") /\
  is_ValueError (KeyError "true") = false.
Proof. repeat split; vm_compute; reflexivity. Qed.

(** C3, amended.  Boolean strictness: for every input of 22
    comma-separated fields in which the token of a boolean position (4, 5,
    6, 8, 9, 17, 19) is any text other than exactly [True] or [False],
    decoding fails; when every field before that position converts, the
    exception is the [KeyError] of the subscription [BOOL[token]]. *)
Theorem bool_strictness (s : string) (i : nat) (tok : string) :
  length (split s) = 22%nat ->
  In i [4; 5; 6; 8; 9; 17; 19]%nat ->
  split s !! i = Some tok ->
  tok <> "True" -> tok <> "False" ->
  (exists e, from_string s = Raise e) /\
  ((forall j c t, (j < i)%nat -> schema !! j = Some c ->
                  split s !! j = Some t -> exists v, convert c t = Ok v) ->
   from_string s = Raise (KeyError tok)).
Proof.
  intros Hlen Hi%schema_bool Htok Htrue Hfalse.
  pose proof (convert_bool_missing tok Htrue Hfalse) as He.
  unfold from_string. split.
  - eapply from_list_Raise_at; eassumption.
  - intros Hbefore. apply from_list_Raise; [assumption|].
    eapply convert_all_first_Raise; eassumption.
Qed.

Lemma bool_strictness_witness :
  (exists e, from_string sample_lower_bool = Raise e) /\
  from_string sample_lower_bool = Raise (KeyError "true").
Proof.
  assert (H : (exists e, from_string sample_lower_bool = Raise e) /\
              ((forall j c t, (j < 4)%nat -> schema !! j = Some c ->
                  split sample_lower_bool !! j = Some t ->
                  exists v, convert c t = Ok v) ->
               from_string sample_lower_bool = Raise (KeyError "true"))).
  { apply (bool_strictness sample_lower_bool 4 "true");
      [reflexivity | simpl; tauto | reflexivity | discriminate | discriminate]. }
  destruct H as [Hfail Hkey]. split; [exact Hfail|].
  apply Hkey. intros j c t Hj.
  do 4 (destruct j as [|j];
        [intros [= <-] [= <-]; eexists; vm_compute; reflexivity|]).
  lia.
Defined.

(** C4. Field-count guard: for every input that splits on the comma into
    a number of parts other than 22, decoding fails with the error of the
    field count, whatever the parts are; no conversion is attempted. *)
Theorem field_count_guard (s : string) :
  length (split s) <> 22%nat ->
  from_string s
  = Raise (ValueError (Msg "Excpected iterable with 22 fields.")).
Proof.
  intros Hlen. unfold from_string, from_list.
  now destruct (Nat.eqb_spec (length (split s)) 22).
Qed.

Lemma field_count_guard_witness :
  from_string sample_21
  = Raise (ValueError (Msg "Excpected iterable with 22 fields.")) /\
  from_string sample_23
  = Raise (ValueError (Msg "Excpected iterable with 22 fields.")).
Proof.
  split.
  - apply (field_count_guard sample_21). vm_compute. lia.
  - apply (field_count_guard sample_23). vm_compute. lia.
Defined.

(** C5. Enum closure: in a record that otherwise decodes, the color token
    [12] makes decoding fail with the error of an undefined code of
    [Color], and the color token [11] decodes to the member LIME; and for
    every enumeration field, a token whose integer is not a code of the
    enumeration makes decoding fail, with the error of the undefined code
    when the record otherwise decodes. *)
Theorem enum_closure (s : string) (r : PlayerPrefs) :
  from_string s = Ok r ->
  (forall s', split s' = <[2%nat:="12"]> (split s) ->
     from_string s' = Raise (ValueError (NotAValid "Color" 12))) /\
  (forall s', split s' = <[2%nat:="11"]> (split s) ->
     exists r', from_string s' = Ok r'
                /\ color r' = VEnum (Member "Color" "LIME" 11)) /\
  (forall i E tok z,
     schema !! i = Some (AsEnum E) -> int tok = Ok z -> z ∉ codes E ->
     (forall s', length (split s') = 22%nat -> split s' !! i = Some tok ->
        exists e, from_string s' = Raise e) /\
     (forall s', split s' = <[i:=tok]> (split s) ->
        from_string s' = Raise (ValueError (NotAValid (cls_name E) z)))).
Proof.
  unfold from_string. intros Hr. split; [|split].
  - intros s' ->.
    apply (from_list_insert_Raise _ r _ (AsEnum Color)); [assumption|reflexivity..].
  - intros s' ->.
    destruct (from_list_insert_Ok _ r 2 (AsEnum Color) "11"
                (VEnum (Member "Color" "LIME" 11)) Hr)
      as (r' & Hr' & Hiter); [reflexivity..|].
    exists r'. split; [assumption|].
    apply (iter_insert_lookup r r' 2) in Hiter; [|lia].
    now injection Hiter.
  - intros i E tok z Hc Hz Hundef.
    pose proof (convert_enum_undefined E tok z Hz Hundef) as He.
    split.
    + intros s' Hlen Htok. eapply from_list_Raise_at; eassumption.
    + intros s' ->. eapply from_list_insert_Raise; eassumption.
Qed.

Lemma enum_closure_witness :
  from_string
    "Bob,1,12,0,True,False,True,0,False,True,30,100,100,0,0,3,0,True,0,False,0,0"
  = Raise (ValueError (NotAValid "Color" 12)) /\
  (exists r',
     from_string
       "Bob,1,11,0,True,False,True,0,False,True,30,100,100,0,0,3,0,True,0,False,0,0"
     = Ok r' /\ color r' = VEnum (Member "Color" "LIME" 11)) /\
  from_string
    "Bob,1,2,0,True,False,True,0,False,True,91,100,100,0,0,3,0,True,0,False,0,0"
  = Raise (ValueError (NotAValid "Hat" 91)).
Proof.
  assert (Hsample : from_string sample = Ok sample_record)
    by (vm_compute; reflexivity).
  destruct (enum_closure sample sample_record Hsample) as (H12 & H11 & Hany).
  split; [|split].
  - apply H12. vm_compute. reflexivity.
  - apply H11. vm_compute. reflexivity.
  - apply (Hany 10%nat Hat "91" 91); [reflexivity | reflexivity | compute_done |].
    vm_compute. reflexivity.
Defined.

(** C6. Bounded range: in a record that otherwise decodes, the sfx token
    [256] makes decoding fail, in the constructor of [U8], and the sfx
    tokens [255] and [0] decode to the sfx values 255 and 0; for every
    token that is an integer, decoding succeeds with that sfx value when
    the integer is within 0..255 and fails in the constructor of [U8]
    otherwise; and the same holds of music. *)
Theorem bounded_range (s : string) (r : PlayerPrefs) :
  from_string s = Ok r ->
  (forall s', split s' = <[11%nat:="256"]> (split s) ->
     from_string s'
     = Raise (ValueError (Msg "UInt7 must be between 0 and 255."))) /\
  (forall s', split s' = <[11%nat:="255"]> (split s) ->
     exists r', from_string s' = Ok r' /\ sfx r' = VU8 255) /\
  (forall s', split s' = <[11%nat:="0"]> (split s) ->
     exists r', from_string s' = Ok r' /\ sfx r' = VU8 0) /\
  (forall s' tok z, split s' = <[11%nat:=tok]> (split s) -> int tok = Ok z ->
     (0 <= z <= 255 -> exists r', from_string s' = Ok r' /\ sfx r' = VU8 z) /\
     (~ 0 <= z <= 255 ->
      from_string s'
      = Raise (ValueError (Msg "UInt7 must be between 0 and 255.")))) /\
  (forall s' tok z, split s' = <[12%nat:=tok]> (split s) -> int tok = Ok z ->
     (0 <= z <= 255 -> exists r', from_string s' = Ok r' /\ music r' = VU8 z) /\
     (~ 0 <= z <= 255 ->
      from_string s'
      = Raise (ValueError (Msg "UInt7 must be between 0 and 255.")))).
Proof.
  unfold from_string. intros Hr.
  assert (Hsfx : forall s' tok z,
    split s' = <[11%nat:=tok]> (split s) -> int tok = Ok z ->
    (0 <= z <= 255 -> exists r', from_list (split s') = Ok r' /\ sfx r' = VU8 z) /\
    (~ 0 <= z <= 255 ->
     from_list (split s')
     = Raise (ValueError (Msg "UInt7 must be between 0 and 255.")))).
  { intros s' tok z -> Hz. split; intros Hrange.
    - destruct (from_list_insert_Ok _ r 11 AsU8 tok (VU8 z) Hr)
        as (r' & Hr' & Hiter); [reflexivity | now apply convert_U8_in_range |].
      exists r'. split; [assumption|].
      apply (iter_insert_lookup r r' 11) in Hiter; [|lia].
      now injection Hiter.
    - apply (from_list_insert_Raise _ r _ AsU8); [assumption | reflexivity |].
      now apply convert_U8_out_of_range with z. }
  split; [|split; [|split; [|split]]].
  - intros s' Hs'. apply (Hsfx s' "256" 256 Hs'); [reflexivity | lia].
  - intros s' Hs'. apply (Hsfx s' "255" 255 Hs'); [reflexivity | lia].
  - intros s' Hs'. apply (Hsfx s' "0" 0 Hs'); [reflexivity | lia].
  - exact Hsfx.
  - intros s' tok z -> Hz. split; intros Hrange.
    + destruct (from_list_insert_Ok _ r 12 AsU8 tok (VU8 z) Hr)
        as (r' & Hr' & Hiter); [reflexivity | now apply convert_U8_in_range |].
      exists r'. split; [assumption|].
      apply (iter_insert_lookup r r' 12) in Hiter; [|lia].
      now injection Hiter.
    + apply (from_list_insert_Raise _ r _ AsU8); [assumption | reflexivity |].
      now apply convert_U8_out_of_range with z.
Qed.

Lemma bounded_range_witness :
  from_string
    "Bob,1,2,0,True,False,True,0,False,True,30,256,100,0,0,3,0,True,0,False,0,0"
  = Raise (ValueError (Msg "UInt7 must be between 0 and 255.")) /\
  (exists r',
     from_string
       "Bob,1,2,0,True,False,True,0,False,True,30,255,100,0,0,3,0,True,0,False,0,0"
     = Ok r' /\ sfx r' = VU8 255) /\
  (exists r',
     from_string
       "Bob,1,2,0,True,False,True,0,False,True,30,0,100,0,0,3,0,True,0,False,0,0"
     = Ok r' /\ sfx r' = VU8 0) /\
  from_string
    "Bob,1,2,0,True,False,True,0,False,True,30,100,-1,0,0,3,0,True,0,False,0,0"
  = Raise (ValueError (Msg "UInt7 must be between 0 and 255.")).
Proof.
  assert (Hsample : from_string sample = Ok sample_record)
    by (vm_compute; reflexivity).
  destruct (bounded_range sample sample_record Hsample)
    as (H256 & H255 & H0 & _ & Hmusic).
  split; [|split; [|split]].
  - apply H256. vm_compute. reflexivity.
  - apply H255. vm_compute. reflexivity.
  - apply H0. vm_compute. reflexivity.
  - apply (Hmusic _ "-1" (-1)); [vm_compute; reflexivity | reflexivity | lia].
Defined.

(** C7. Known-good sample: the sample string decodes to the record with
    the name Bob, control MOUSE_AND_KEYBOARD, color GREEN, hat CROWN, sfx
    and music 100, skin BLUEY, pet NONE, censor_chat True, language
    ENGLISH and vsync False, and encoding that record gives the sample
    string back. *)
Theorem known_good_sample :
  exists r,
    from_string sample = Ok r /\
    name r = VStr "Bob" /\
    control r = VEnum (Member "Control" "MOUSE_AND_KEYBOARD" 1) /\
    color r = VEnum (Member "Color" "GREEN" 2) /\
    hat r = VEnum (Member "Hat" "CROWN" 30) /\
    sfx r = VU8 100 /\
    music r = VU8 100 /\
    skin r = VEnum (Member "Skin" "BLUEY" 3) /\
    pet r = VEnum (Member "Pet" "NONE" 0) /\
    censor_chat r = VBool true /\
    language r = VEnum (Member "Language" "ENGLISH" 0) /\
    vsync r = VBool false /\
    __str__ r = sample.
Proof.
  exists sample_record. repeat split; vm_compute; reflexivity.
Qed.

(** C8. The duplicate hat code: for every input whose hat token is [90],
    a decoded record has the member named MINIME as its hat; two decodings
    of the input give equal results; and the input decodes whenever it is
    a record that decodes with its hat token replaced by [90]. *)
Theorem hat_90_deterministic (s : string) :
  split s !! 10%nat = Some "90" ->
  (forall r, from_string s = Ok r -> hat r = VEnum (Member "Hat" "MINIME" 90)) /\
  (forall x y, from_string s = x -> from_string s = y -> x = y) /\
  (forall s0 r0, from_string s0 = Ok r0 ->
                 split s = <[10%nat:="90"]> (split s0) ->
                 exists r, from_string s = Ok r).
Proof.
  unfold from_string. intros Htok. split; [|split].
  - intros r [_ Hvs]%from_list_Ok.
    destruct (convert_all_lookup schema _ _ 10 (AsEnum Hat) "90" Hvs)
      as (v & Hv & Hconv); [reflexivity | assumption |].
    vm_compute in Hconv. injection Hconv as <-.
    now injection Hv.
  - congruence.
  - intros s0 r0 Hr0 ->.
    destruct (from_list_insert_Ok _ r0 10 (AsEnum Hat) "90"
                (VEnum (Member "Hat" "MINIME" 90)) Hr0)
      as (r & Hr & _); [reflexivity..|].
    eauto.
Qed.

Lemma hat_90_deterministic_witness :
  (exists r, from_string sample_hat_90 = Ok r
             /\ hat r = VEnum (Member "Hat" "MINIME" 90)) /\
  from_string sample_hat_90 = from_string sample_hat_90.
Proof.
  destruct (hat_90_deterministic sample_hat_90) as (Hhat & Hsame & Hdec);
    [vm_compute; reflexivity|].
  split.
  - destruct (Hdec sample sample_record) as [r Hr];
      [vm_compute; reflexivity | vm_compute; reflexivity |].
    exists r. split; [exact Hr | exact (Hhat r Hr)].
  - apply Hsame; reflexivity.
Defined.

(** C9. Alias preservation: the names MINIME and NINJA_MASK are both
    names of [Hat], lookup by either name succeeds, both give a member of
    value 90 (the same member), and lookup of the value 90 succeeds. *)
Theorem hat_aliases_preserved :
  "MINIME" ∈ names Hat /\ "NINJA_MASK" ∈ names Hat /\
  exists m,
    getitem_name Hat "MINIME" = Ok m /\
    getitem_name Hat "NINJA_MASK" = Ok m /\
    m_value m = 90 /\
    call Hat 90 = Ok m.
Proof.
  split; [compute_done|]. split; [compute_done|].
  exists (Member "Hat" "MINIME" 90). repeat split; vm_compute; reflexivity.
Qed.

(** C10. The empty string splits into one empty field, not into none, and
    decoding it fails with the error of the field count, not with the
    error of a conversion. *)
Theorem empty_string_field_count :
  split "" = [""] /\
  from_string ""
  = Raise (ValueError (Msg "Excpected iterable with 22 fields.")).
Proof. split; reflexivity. Qed.

(** * Further properties *)

(** ** Commas and fields *)

Lemma length_split (s : string) : length (split s) = S (count_commas s).
Proof.
  induction s as [|c s IH]; simpl; [reflexivity|].
  destruct (Ascii.eqb c comma); simpl; [now rewrite IH|].
  destruct (split s); simpl in *; [discriminate | assumption].
Qed.

Lemma count_commas_app (a b : string) :
  count_commas (a +:+ b) = (count_commas a + count_commas b)%nat.
Proof.
  induction a as [|c a IH]; simpl; [reflexivity|].
  destruct (Ascii.eqb c comma); simpl; now rewrite IH.
Qed.

Lemma comma_free_count (s : string) :
  comma_free s = true <-> count_commas s = 0%nat.
Proof.
  induction s as [|c s IH]; simpl; [tauto|].
  destruct (Ascii.eqb c comma); simpl; [split; discriminate | exact IH].
Qed.

(** The commas of a join of comma-free parts after a first part are
    those of the first part and one for each further part. *)
Lemma count_commas_join (w : string) (ws : list string) :
  Forall (fun w => comma_free w = true) ws ->
  count_commas (join (w :: ws)) = (count_commas w + length ws)%nat.
Proof.
  revert w. induction ws as [|w' ws IH]; intros w Hws.
  - simpl. lia.
  - apply Forall_cons_1 in Hws as [Hw' Hws].
    change (join (w :: w' :: ws)) with (w +:+ String comma (join (w' :: ws))).
    rewrite count_commas_app.
    change (count_commas (String comma (join (w' :: ws))))
      with (S (count_commas (join (w' :: ws)))).
    rewrite (IH w' Hws), (proj1 (comma_free_count w') Hw'). simpl. lia.
Qed.

Lemma split_tokens_comma_free (s : string) :
  Forall (fun w => comma_free w = true) (split s).
Proof.
  induction s as [|c s IH]; simpl; [repeat constructor|].
  destruct (Ascii.eqb c comma) eqn:Hc; [now constructor|].
  destruct (split s) as [|w ws]; [repeat constructor; simpl; now rewrite Hc|].
  apply Forall_cons_1 in IH as [Hw Hws].
  constructor; [simpl; now rewrite Hc | assumption].
Qed.

(** [','.join(s.split(',')) == s] *)
Lemma join_split (s : string) : join (split s) = s.
Proof.
  induction s as [|c s IH]; simpl; [reflexivity|].
  destruct (Ascii.eqb_spec c comma) as [->|Hc].
  - pose proof (split_nonempty s) as Hne.
    destruct (split s) as [|w ws]; [congruence|].
    change (join ("" :: w :: ws)) with (String comma (join (w :: ws))).
    now rewrite IH.
  - destruct (split s) as [|w ws] eqn:Hs; [now apply split_nonempty in Hs|].
    rewrite <- IH. now destruct ws.
Qed.

(** The tokens of the encoding of a well-typed record after the name
    have no comma. *)
Lemma tail_tokens_comma_free (r : PlayerPrefs) :
  well_typed r = true ->
  Forall (fun w => comma_free w = true) (str <$> tail (__iter__ r)).
Proof.
  intros Hty.
  apply (have_types_comma_free (tail schema)); [|exact schema_tail_not_str].
  now apply andb_prop in Hty as [_ Htail].
Qed.

Lemma well_typed_name (r : PlayerPrefs) :
  well_typed r = true -> exists s, name r = VStr s.
Proof.
  intros [Hname _]%andb_prop. destruct (name r); try discriminate. eauto.
Qed.

(** With a comma-free name, the encoding splits into the renderings of
    the fields. *)
Lemma split_str (r : PlayerPrefs) :
  well_typed r = true -> name_comma_free r = true ->
  split (__str__ r) = str <$> __iter__ r.
Proof.
  intros Hty Hname. unfold __str__.
  apply split_join; [discriminate|].
  apply Forall_cons; split; [|now apply tail_tokens_comma_free].
  unfold name_comma_free in Hname. now destruct (name r).
Qed.

Lemma from_list_str (r : PlayerPrefs) :
  well_typed r = true -> from_list (str <$> __iter__ r) = Ok r.
Proof.
  intros Hty. apply from_list_Ok. split; [reflexivity|].
  now apply convert_all_str.
Qed.

(** ** Which tokens convert *)

(** When every token converts, the list converts. *)
Lemma convert_all_total (cs : list conv) (lst : list string) :
  length cs = length lst ->
  (forall i c tok, cs !! i = Some c -> lst !! i = Some tok ->
                   exists v, convert c tok = Ok v) ->
  exists vs, convert_all cs lst = Ok vs /\ length vs = length lst.
Proof.
  revert lst. induction cs as [|c cs IH]; intros [|tok lst] Hlen Hall;
    try discriminate.
  - exists []. split; reflexivity.
  - destruct (Hall 0%nat c tok) as [v Hv]; [reflexivity..|].
    destruct (IH lst) as (vs & Hvs & Hlvs); [now injection Hlen | |].
    { intros i c' tok'. apply (Hall (S i)). }
    exists (v :: vs). simpl. rewrite Hv, Hvs. simpl. now rewrite Hlvs.
Qed.

(** When the list does not convert, some token is the first not to. *)
Lemma convert_all_Raise_first (cs : list conv) (lst : list string) (e : exn) :
  convert_all cs lst = Raise e ->
  exists i c tok,
    cs !! i = Some c /\ lst !! i = Some tok /\ convert c tok = Raise e /\
    forall j c' t, (j < i)%nat -> cs !! j = Some c' -> lst !! j = Some t ->
                   exists v, convert c' t = Ok v.
Proof.
  revert lst. induction cs as [|c cs IH]; intros [|tok lst]; try discriminate.
  simpl. destruct (convert c tok) as [v|e'] eqn:Hv; simpl.
  - destruct (convert_all cs lst) as [vs|e''] eqn:Hvs; simpl; [discriminate|].
    intros [= ->]. destruct (IH lst Hvs) as (i & c' & tok' & Hc & Ht & He & Hb).
    exists (S i), c', tok'. repeat split; try assumption.
    intros [|j] c'' t Hj; simpl.
    + intros [= <-] [= <-]. eauto.
    + apply Hb. lia.
  - intros [= ->]. exists 0%nat, c, tok. repeat split; try assumption. lia.
Qed.

(** A conversion raises a [ValueError], except [BOOL[tok]], which raises
    the [KeyError] of a token that is neither [True] nor [False]. *)
Lemma convert_Raise (c : conv) (tok : string) (e : exn) :
  convert c tok = Raise e ->
  is_ValueError e = true \/
  (c = AsBool /\ e = KeyError tok /\ tok <> "True" /\ tok <> "False").
Proof.
  destruct c; simpl.
  - discriminate.
  - unfold int. destruct (signed_digits _); simpl; [discriminate|].
    intros [= <-]. now left.
  - unfold BOOL_getitem. destruct (BOOL !! tok) eqn:Hb; simpl; [discriminate|].
    intros [= <-]. right. apply BOOL_lookup_None in Hb. tauto.
  - unfold int. destruct (signed_digits _) as [z|]; simpl;
      [|intros [= <-]; now left].
    unfold call. destruct (value2member E z); simpl; [discriminate|].
    intros [= <-]. now left.
  - unfold U8. simpl. unfold int. destruct (signed_digits _) as [z|]; simpl;
      [|intros [= <-]; now left].
    destruct (_ && _); [discriminate|]. intros [= <-]. now left.
Qed.

Lemma BOOL_getitem_Ok (tok : string) (b : bool) :
  BOOL_getitem tok = Ok b -> tok = str_bool b.
Proof.
  unfold BOOL_getitem. destruct (BOOL !! tok) as [b'|] eqn:Hb; [|discriminate].
  intros [= ->]. unfold BOOL in Hb.
  apply lookup_insert_Some in Hb as [[<- <-]|[_ Hb]]; [reflexivity|].
  apply lookup_singleton_Some in Hb as [<- <-]. reflexivity.
Qed.

(** The rendering of a converted token is the token for a name and for a
    boolean, and the canonical numeral of the integer read for the other
    positions. *)
Lemma convert_str_numeric (c : conv) (tok : string) (v : value) :
  convert c tok = Ok v ->
  if numeric c then exists z, int tok = Ok z /\ str v = str_int z
  else str v = tok.
Proof.
  destruct c; simpl.
  - now intros [= <-].
  - destruct (int tok) as [z|]; simpl; [|discriminate].
    intros [= <-]. eauto.
  - destruct (BOOL_getitem tok) as [b|] eqn:Hb; simpl; [|discriminate].
    intros [= <-]. simpl. symmetry. now apply BOOL_getitem_Ok.
  - destruct (int tok) as [z|]; simpl; [|discriminate].
    destruct (call E z) as [m|] eqn:Hm; simpl; [|discriminate].
    intros [= <-]. apply call_Ok in Hm as [_ <-]. eauto.
  - unfold U8. simpl. destruct (int tok) as [z|]; simpl; [|discriminate].
    destruct (_ && _); [|discriminate]. intros [= <-]. eauto.
Qed.

Lemma convert_str_canonical (c : conv) (tok : string) (v : value) :
  convert c tok = Ok v ->
  (str v = tok <-> (numeric c = true -> exists z, tok = str_int z)).
Proof.
  intros Hv. pose proof (convert_str_numeric c tok v Hv) as Hs.
  destruct (numeric c).
  - destruct Hs as (z & Hz & Hstr). split.
    + intros <- _. eauto.
    + intros [z' ->]; [reflexivity|].
      rewrite int_str_int in Hz. injection Hz as <-. exact Hstr.
  - split; [discriminate | intros _; exact Hs].
Qed.

Lemma convert_all_str_canonical (cs : list conv) (lst : list string)
    (vs : list value) :
  length cs = length lst -> convert_all cs lst = Ok vs ->
  (str <$> vs = lst <->
   forall i c tok, cs !! i = Some c -> lst !! i = Some tok ->
                   numeric c = true -> exists z, tok = str_int z).
Proof.
  revert lst vs. induction cs as [|c cs IH]; intros [|tok lst] vs Hlen Hall;
    try discriminate.
  - injection Hall as <-. split; [intros _ i c tok Hc; discriminate | reflexivity].
  - apply convert_all_Ok_cons in Hall as (v & vs' & -> & Hv & Hvs).
    injection Hlen as Hlen. specialize (IH lst vs' Hlen Hvs).
    pose proof (convert_str_canonical c tok v Hv) as Hhead.
    rewrite fmap_cons. split.
    + intros [= Hstr Htail] [|i] c' tok'; simpl.
      * intros [= <-] [= <-]. now apply Hhead.
      * now apply IH.
    + intros Hcan. f_equal.
      * apply Hhead. now apply (Hcan 0%nat).
      * apply IH. intros i c' tok'. apply (Hcan (S i)).
Qed.

(** ** White space after a numeral *)









(** ** Names of an enumeration *)

Lemma body_name_value (body : list (string * Z)) (n : string) (v v' : Z) :
  NoDup (fst <$> body) -> (n, v) ∈ body -> (n, v') ∈ body -> v = v'.
Proof.
  induction body as [|[n0 v0] body IH]; simpl.
  - intros _ H. now apply elem_of_nil in H.
  - intros [Hn0 Hnd]%NoDup_cons [H1|H1]%elem_of_cons [H2|H2]%elem_of_cons.
    + congruence.
    + injection H1 as -> ->. destruct Hn0.
      apply list_elem_of_fmap. now exists (n0, v').
    + injection H2 as -> ->. destruct Hn0.
      apply list_elem_of_fmap. now exists (n0, v).
    + now apply IH.
Qed.

Lemma value2member_body (E : IntEnum) (n : string) (v : Z) :
  (n, v) ∈ cls_body E -> exists m, value2member E v = Some m.
Proof.
  intros Hin. unfold value2member.
  destruct (find _ _) as [[n' v']|] eqn:Hfind; [eauto|].
  apply list_elem_of_In in Hin.
  apply (find_none _ _ Hfind) in Hin. simpl in Hin. lia.
Qed.

(** ** Decoding, token by token *)

Lemma from_string_Ok_tokens (s : string) (r : PlayerPrefs) (i : nat)
    (c : conv) (tok : string) :
  from_string s = Ok r -> schema !! i = Some c -> split s !! i = Some tok ->
  exists v, __iter__ r !! i = Some v /\ convert c tok = Ok v.
Proof.
  intros [_ Hvs]%from_list_Ok. eauto using convert_all_lookup.
Qed.

Lemma decoded_name_comma_free (s : string) (r : PlayerPrefs) :
  from_string s = Ok r -> name_comma_free r = true.
Proof.
  intros Hr. pose proof Hr as [Hlen _]%from_list_Ok.
  destruct (split s) as [|tok lst] eqn:Hs; [discriminate|].
  destruct (from_string_Ok_tokens s r 0 AsStr tok Hr) as (v & Hv & Hconv);
    [reflexivity | now rewrite Hs |].
  injection Hv as <-. injection Hconv as Hname.
  unfold name_comma_free. rewrite <- Hname.
  pose proof (split_tokens_comma_free s) as Hfree. rewrite Hs in Hfree.
  now apply Forall_cons_1 in Hfree as [Htok _].
Qed.

(** A decoding that fails fails at the count of the fields, or at the
    first token that does not convert. *)
Lemma from_string_Raise_inv (s : string) (e : exn) :
  from_string s = Raise e ->
  (length (split s) <> 22%nat /\
   e = ValueError (Msg "Excpected iterable with 22 fields.")) \/
  (length (split s) = 22%nat /\
   exists i c tok,
     schema !! i = Some c /\ split s !! i = Some tok /\
     convert c tok = Raise e /\
     forall j c' t, (j < i)%nat -> schema !! j = Some c' ->
                    split s !! j = Some t -> exists v, convert c' t = Ok v).
Proof.
  unfold from_string. rewrite from_list_schema.
  destruct (Nat.eqb_spec (length (split s)) 22) as [Hlen|Hlen]; cbn [negb];
    intros H.
  - right. split; [assumption|].
    destruct (convert_all schema (split s)) as [vs|e'] eqn:Hvs; cbn [bind] in H.
    + apply convert_all_length in Hvs; [|now rewrite Hlen].
      destruct (of_values_length vs) as (r & Hr & _); congruence.
    + injection H as ->. now apply convert_all_Raise_first.
  - injection H as <-. now left.
Qed.

(** * Further theorems *)

(** X1. A comma in the name: for every record whose fields lie in their
    domains, [from_list] gives the record back from the list of the
    rendered fields, whatever the name; the encoding splits into 22 parts
    and one more for each comma of the name; and when the name has a
    comma, decoding the encoding fails with the error of the field
    count. *)
Theorem encode_name_commas (r : PlayerPrefs) :
  well_typed r = true ->
  from_list (str <$> __iter__ r) = Ok r /\
  length (split (__str__ r)) = (22 + count_commas (str (name r)))%nat /\
  (name_comma_free r = false ->
   from_string (__str__ r)
   = Raise (ValueError (Msg "Excpected iterable with 22 fields."))).
Proof.
  intros Hty.
  assert (Hcount : length (split (__str__ r))
                   = (22 + count_commas (str (name r)))%nat).
  { rewrite length_split. unfold __str__.
    change (str <$> __iter__ r)
      with (str (name r) :: (str <$> tail (__iter__ r))).
    rewrite count_commas_join by now apply tail_tokens_comma_free.
    simpl. lia. }
  split; [now apply from_list_str|]. split; [exact Hcount|].
  intros Hname. unfold from_string, from_list.
  destruct (Nat.eqb_spec (length (split (__str__ r))) 22) as [Hlen|];
    [|reflexivity].
  rewrite Hcount in Hlen.
  destruct (well_typed_name r Hty) as [nm Hnm].
  unfold name_comma_free in Hname. rewrite Hnm in Hname, Hlen. simpl in Hlen.
  assert (Hfree : comma_free nm = true) by (apply comma_free_count; lia).
  congruence.
Qed.

Lemma encode_name_commas_witness :
  from_list (str <$> __iter__ sample_record_comma) = Ok sample_record_comma /\
  length (split (__str__ sample_record_comma)) = 23%nat /\
  from_string (__str__ sample_record_comma)
  = Raise (ValueError (Msg "Excpected iterable with 22 fields.")).
Proof.
  destruct (encode_name_commas sample_record_comma) as (Hlist & Hlen & Hfail);
    [vm_compute; reflexivity|].
  split; [exact Hlist|]. split; [exact Hlen|].
  apply Hfail. vm_compute. reflexivity.
Defined.

(** X2. Encoding a decoded record and decoding again gives the same
    record: whatever text decodes, its re-encoding decodes to the same
    record. *)
Theorem decode_encode_decode (s : string) (r : PlayerPrefs) :
  from_string s = Ok r -> from_string (__str__ r) = Ok r.
Proof.
  intros Hr. pose proof (decoded_name_comma_free s r Hr) as Hname.
  apply from_list_well_typed in Hr as Hty.
  unfold from_string. rewrite split_str by assumption.
  now apply from_list_str.
Qed.

Lemma decode_encode_decode_witness :
  from_string sample_spaced = Ok sample_record /\
  from_string (__str__ sample_record) = Ok sample_record.
Proof.
  assert (H : from_string sample_spaced = Ok sample_record)
    by (vm_compute; reflexivity).
  split; [exact H|]. exact (decode_encode_decode sample_spaced sample_record H).
Defined.

(** X3. Encoding a decoded record gives the decoded text back exactly
    when every token that is read with [int] (every position but the name
    and the booleans) is the canonical decimal numeral of an integer: no
    white space, no plus sign, no underscore, no leading zero. *)
Theorem reencode_identity_iff_canonical (s : string) (r : PlayerPrefs) :
  from_string s = Ok r ->
  (__str__ r = s <->
   forall i c tok, schema !! i = Some c -> split s !! i = Some tok ->
                   numeric c = true -> exists z, tok = str_int z).
Proof.
  intros Hr. pose proof (decoded_name_comma_free s r Hr) as Hname.
  pose proof Hr as Hty%from_list_well_typed.
  apply from_list_Ok in Hr as [Hlen Hvs].
  rewrite <- (convert_all_str_canonical schema (split s) (__iter__ r));
    [|now rewrite Hlen | assumption].
  split.
  - intros <-. symmetry. now apply split_str.
  - intros Htok. unfold __str__. rewrite Htok. apply join_split.
Qed.

Lemma reencode_identity_iff_canonical_witness :
  __str__ sample_record <> sample_spaced /\
  exists i c tok,
    schema !! i = Some c /\ split sample_spaced !! i = Some tok /\
    numeric c = true /\ forall z, tok <> str_int z.
Proof.
  assert (Hr : from_string sample_spaced = Ok sample_record)
    by (vm_compute; reflexivity).
  pose proof (reencode_identity_iff_canonical sample_spaced sample_record Hr)
    as Hiff.
  assert (Hbad : forall z, " 1" <> str_int z).
  { intros z Hz. pose proof (plain_str_int z) as Hplain.
    rewrite <- Hz in Hplain. discriminate. }
  split.
  - intros Heq.
    destruct (proj1 Hiff Heq 1%nat (AsEnum Control) " 1") as [z Hz];
      [reflexivity..|]. exact (Hbad z Hz).
  - exists 1%nat, (AsEnum Control), " 1". repeat split. exact Hbad.
Defined.



(** X5. Decoding is all or nothing: a text decodes exactly when it splits
    into 22 parts and every part converts by the conversion of its
    position. *)
Theorem decode_succeeds_iff (s : string) :
  (exists r, from_string s = Ok r) <->
  length (split s) = 22%nat /\
  forall i c tok, schema !! i = Some c -> split s !! i = Some tok ->
                  exists v, convert c tok = Ok v.
Proof.
  split.
  - intros [r Hr]. pose proof Hr as [Hlen _]%from_list_Ok.
    split; [assumption|]. intros i c tok Hc Htok.
    destruct (from_string_Ok_tokens s r i c tok Hr Hc Htok) as (v & _ & Hv).
    eauto.
  - intros [Hlen Hall].
    destruct (convert_all_total schema (split s)) as (vs & Hvs & Hlvs);
      [now rewrite Hlen | assumption |].
    destruct (of_values_length vs) as (r & _ & Hiter); [congruence|].
    exists r. apply from_list_Ok. now rewrite Hiter.
Qed.

(** X6. The exception of a decoding that fails: decoding raises [e]
    exactly when the text does not split into 22 parts and [e] is the
    error of the field count, or the text splits into 22 parts and [e] is
    raised by the conversion of the leftmost part that does not
    convert. *)
Theorem decode_raises_iff (s : string) (e : exn) :
  from_string s = Raise e <->
  (length (split s) <> 22%nat /\
   e = ValueError (Msg "Excpected iterable with 22 fields.")) \/
  (length (split s) = 22%nat /\
   exists i c tok,
     schema !! i = Some c /\ split s !! i = Some tok /\
     convert c tok = Raise e /\
     forall j c' t, (j < i)%nat -> schema !! j = Some c' ->
                    split s !! j = Some t -> exists v, convert c' t = Ok v).
Proof.
  split; [apply from_string_Raise_inv|].
  unfold from_string. intros [[Hlen ->]|(Hlen & i & c & tok & Hc & Htok & He & Hb)].
  - unfold from_list. now destruct (Nat.eqb_spec (length (split s)) 22).
  - apply from_list_Raise; [assumption|].
    eapply convert_all_first_Raise; eassumption.
Qed.

(** X7. The classes of the exceptions of decoding: decoding never raises
    an [IndexError], and the only exception it raises that is not a
    [ValueError] is the [KeyError] of a token of a boolean position that
    is neither [True] nor [False]. *)
Theorem decode_exception_classes (s : string) (e : exn) :
  from_string s = Raise e ->
  e <> IndexError /\
  (is_ValueError e = true \/
   exists i tok,
     In i [4; 5; 6; 8; 9; 17; 19]%nat /\ split s !! i = Some tok /\
     e = KeyError tok /\ tok <> "True" /\ tok <> "False").
Proof.
  intros [[_ ->]|(_ & i & c & tok & Hc & Htok & He & _)]%from_string_Raise_inv.
  - split; [discriminate | now left].
  - apply convert_Raise in He as [He|(-> & -> & Htrue & Hfalse)].
    + split; [now destruct e | now left].
    + split; [discriminate|]. right. exists i, tok.
      apply schema_bool in Hc. auto.
Qed.

Lemma decode_exception_classes_witness :
  KeyError "true" <> IndexError /\
  (is_ValueError (KeyError "true") = true \/
   exists i tok,
     In i [4; 5; 6; 8; 9; 17; 19]%nat /\
     split sample_lower_bool !! i = Some tok /\
     KeyError "true" = KeyError tok /\ tok <> "True" /\ tok <> "False").
Proof.
  apply (decode_exception_classes sample_lower_bool (KeyError "true")).
  vm_compute. reflexivity.
Defined.

(** X8. The codes of the dense enumerations: lookup by value succeeds
    exactly on 0..1 for [Control], on 0..11 for [Color], on 0..9 for
    [Skin], on 0 for [Pet] and on 0..4 for [Language]. *)
Theorem dense_enum_codes (z : Z) :
  ((exists m, call Control z = Ok m) <-> 0 <= z <= 1) /\
  ((exists m, call Color z = Ok m) <-> 0 <= z <= 11) /\
  ((exists m, call Skin z = Ok m) <-> 0 <= z <= 9) /\
  ((exists m, call Pet z = Ok m) <-> z = 0) /\
  ((exists m, call Language z = Ok m) <-> 0 <= z <= 4).
Proof.
  rewrite <- !call_codes.
  split; [|split; [|split; [|split]]];
    match goal with
    | |- context [codes ?E] =>
        let l := eval vm_compute in (codes E) in change (codes E) with l
    end;
    rewrite ?elem_of_cons, ?elem_of_nil; lia.
Qed.

(** X9. The codes of [Hat] are sparse: lookup by value succeeds exactly
    on 0..19, 28..44, 47, 49..60, 76..90, 92 and 93. *)
Theorem hat_codes (z : Z) :
  (exists m, call Hat z = Ok m) <->
  0 <= z <= 19 \/ 28 <= z <= 44 \/ z = 47 \/ 49 <= z <= 60 \/
  76 <= z <= 90 \/ 92 <= z <= 93.
Proof.
  rewrite <- call_codes.
  let l := eval vm_compute in (codes Hat) in change (codes Hat) with l.
  rewrite ?elem_of_cons, ?elem_of_nil. lia.
Qed.

(** X10. Lookup by name: in an enumeration whose names are distinct,
    every name of the body, an alias as well, looks up to a member whose
    value is the value the body binds the name to; a name that is not in
    the body raises the [KeyError] of the name. *)
Theorem name_lookup (E : IntEnum) (n : string) :
  NoDup (names E) ->
  (forall v, (n, v) ∈ cls_body E ->
     exists m, getitem_name E n = Ok m /\ m_value m = v /\ m ∈ members E) /\
  (n ∉ names E -> getitem_name E n = Raise (KeyError n)).
Proof.
  intros Hnd. unfold getitem_name. split.
  - intros v Hin.
    destruct (find _ _) as [[n' v']|] eqn:Hfind.
    + apply find_some in Hfind as [Hin' Hn']. simpl in Hn'.
      apply String.eqb_eq in Hn' as ->.
      apply list_elem_of_In in Hin'.
      rewrite (body_name_value _ _ _ _ Hnd Hin' Hin).
      destruct (value2member_body E n v Hin) as [m Hm].
      assert (Hcall : call E v = Ok m) by (unfold call; now rewrite Hm).
      exists m. split; [assumption|]. apply call_Ok in Hcall. tauto.
    + apply list_elem_of_In in Hin.
      apply (find_none _ _ Hfind) in Hin. simpl in Hin.
      now rewrite String.eqb_refl in Hin.
  - intros Hn. destruct (find _ _) as [[n' v']|] eqn:Hfind; [|reflexivity].
    apply find_some in Hfind as [Hin' Hn']. simpl in Hn'.
    apply String.eqb_eq in Hn' as ->. destruct Hn.
    apply list_elem_of_fmap. exists (n, v').
    split; [reflexivity | now apply list_elem_of_In].
Qed.

Lemma name_lookup_witness :
  (exists m, getitem_name Hat "NINJA_MASK" = Ok m /\ m_value m = 90
             /\ m ∈ members Hat) /\
  getitem_name Color "MAGENTA" = Raise (KeyError "MAGENTA").
Proof.
  split.
  - apply (name_lookup Hat "NINJA_MASK"); compute_done.
  - apply (name_lookup Color "MAGENTA"); compute_done.
Defined.

(** X11. Members and values: looking the value of a member up gives the
    member, a lookup by value that succeeds gives a member of that value,
    and two members of an enumeration that have the same value are the
    same member. *)
Theorem member_value_lookup (E : IntEnum) (m m' : member) (z : Z) :
  (m ∈ members E -> call E (m_value m) = Ok m) /\
  (call E z = Ok m -> m_value m = z /\ m ∈ members E) /\
  (m ∈ members E -> m' ∈ members E -> m_value m = m_value m' -> m = m').
Proof.
  split; [apply call_member|]. split.
  - intros Hm%call_Ok. tauto.
  - intros Hm%call_member Hm'%call_member Hv. rewrite Hv in Hm. congruence.
Qed.

Lemma member_value_lookup_witness :
  call Hat 90 = Ok (Member "Hat" "MINIME" 90) /\
  (m_value (Member "Hat" "MINIME" 90) = 90
   /\ Member "Hat" "MINIME" 90 ∈ members Hat).
Proof.
  pose (m := Member "Hat" "MINIME" 90).
  destruct (member_value_lookup Hat m m 90) as (Hcall & Hval & _).
  split.
  - apply Hcall. compute_done.
  - apply Hval. vm_compute. reflexivity.
Defined.

(** X12. What [U8] returns: a value that [U8] returns is an instance of
    [U8] whose integer is [int] of the argument and lies within 0..255,
    and [U8] returns it unchanged when applied to it again. *)
Theorem U8_returns_in_range (v w : value) :
  U8 v = Ok w ->
  exists z, w = VU8 z /\ 0 <= z <= 255 /\ int_value v = Ok z /\ U8 w = Ok w.
Proof.
  unfold U8 at 1. destruct (int_value v) as [z|]; simpl; [|discriminate].
  destruct (Z.leb_spec 0 z), (Z.leb_spec z 255); simpl; try discriminate.
  intros [= <-]. exists z. repeat split; try assumption.
  apply U8_in_range; [reflexivity | lia].
Qed.

Lemma U8_returns_in_range_witness :
  exists z, VU8 7 = VU8 z /\ 0 <= z <= 255 /\ int_value (VStr " 0_7 ") = Ok z
            /\ U8 (VU8 7) = Ok (VU8 7).
Proof.
  apply (U8_returns_in_range (VStr " 0_7 ") (VU8 7)). vm_compute. reflexivity.
Defined.

(** X13. Encoding is injective: two records whose fields lie in their
    domains and whose names have no comma, and that have the same
    encoding, are the same record. *)
Theorem encode_injective (r r' : PlayerPrefs) :
  well_typed r = true -> name_comma_free r = true ->
  well_typed r' = true -> name_comma_free r' = true ->
  __str__ r = __str__ r' -> r = r'.
Proof.
  intros Hty Hname Hty' Hname' Hstr.
  apply (f_equal split) in Hstr. rewrite !split_str in Hstr by assumption.
  pose proof (from_list_str r Hty) as Hr.
  rewrite Hstr, (from_list_str r' Hty') in Hr. now injection Hr.
Qed.

Lemma encode_injective_witness :
  sample_record = sample_record.
Proof.
  apply (encode_injective sample_record sample_record);
    vm_compute; reflexivity.
Defined.

(** ** Streams *)

Lemma skip_all (n : nat) (s : string) :
  (String.length s <= n)%nat -> skip n s = "".
Proof.
  revert s. induction n as [|n IH]; intros [|c s]; simpl; try reflexivity.
  - lia.
  - intros Hlen. apply IH. lia.
Qed.

(** X14. [from_buffer] uses the stream up: a stream at its start over the
    encoding of a record whose fields lie in their domains and whose name
    has no comma decodes to the record; and after [from_buffer], whatever
    the stream was and whatever the outcome, the stream is at its end, so
    that [from_buffer] on it again reads the empty string and fails with
    the error of the field count. *)
Theorem from_buffer_uses_up (buf : StringIO) (r : PlayerPrefs) :
  (well_typed r = true -> name_comma_free r = true ->
   fst (from_buffer (mkStringIO (__str__ r) 0)) = Ok r) /\
  from_buffer (snd (from_buffer buf))
  = (Raise (ValueError (Msg "Excpected iterable with 22 fields.")),
     snd (from_buffer buf)).
Proof.
  split.
  - intros Hty Hname. unfold from_buffer, read, from_string. simpl.
    rewrite split_str by assumption. now apply from_list_str.
  - destruct buf as [text pos]. unfold from_buffer, read. simpl.
    rewrite skip_all by lia. f_equal. f_equal. lia.
Qed.

Lemma from_buffer_uses_up_witness :
  fst (from_buffer (mkStringIO (__str__ sample_record) 0)) = Ok sample_record /\
  from_buffer (snd (from_buffer (mkStringIO sample 0)))
  = (Raise (ValueError (Msg "Excpected iterable with 22 fields.")),
     snd (from_buffer (mkStringIO sample 0))).
Proof.
  destruct (from_buffer_uses_up (mkStringIO sample 0) sample_record)
    as [Hfirst Hsecond].
  split; [apply Hfirst; vm_compute; reflexivity | exact Hsecond].
Defined.
